(** * om_performance_monitor: the [PerformanceMonitor] timer

    A shallow embedding of [src/om_performance_monitor/monitors.py].

    The monitor is a mutable Python object whose methods read a clock
    ([time.perf_counter]), raise exceptions and call a user-supplied
    logger.  Each method is embedded as a computation in a small
    state-and-exception monad over the pair (monitor, world), where the
    world holds the clock and the record of the calls made to the
    logger.  Python's [float] is IEEE 754 binary64, which is what Rocq's
    primitive floats are, so timestamps are primitive floats and
    [elapsed] is computed with the primitive subtraction. *)

From Stdlib Require Import String Ascii List Floats.
From stdpp Require Import base option list gmap strings.

Local Open Scope string_scope.

(** ** Exceptions *)

(** Modelled from the spec: the module [exceptions], from which
    [monitors.py] imports [SaveError] and [TimerError], is not part of
    the sources.  The specification has every failure of the timer
    raised to the caller with a message; the import gives the two
    classes they are raised as, taken here as two distinct classes,
    each built from one message.  [Builtin] stands for every other
    subclass of [Exception], named by its class name: the errors of
    Python's builtins and the errors a caller's own code raises. *)
Inductive exn_class : Type :=
  | TimerError
  | SaveError
  | Builtin (cls : string).

Record exn : Type := Exn { exn_type : exn_class; exn_msg : string }.

#[global] Instance exn_class_eq_dec : EqDecision exn_class.
Proof. solve_decision. Defined.

#[global] Instance exn_eq_dec : EqDecision exn.
Proof. solve_decision. Defined.

(** [str(e)] of an exception built from one message. *)
Definition str_exn (e : exn) : string := exn_msg e.

(** The line feed written [\n] in the Python literals. *)
Definition nl : string := String (ascii_of_nat 10) EmptyString.

(** ** The Python runtime *)

(** What the code uses of Python but does not define: the objects other
    than [None] and floats that an attribute may hold, the builtin
    [float()] on them ([inl e]: it raises [e]), [str()] on them, and
    [str()] on a float (its shortest round-trip representation). *)
Class Python : Type := {
  obj : Type;
  float_of_obj : obj -> exn + float;
  str_of_obj : obj -> string;
  str_float : float -> string
}.

Section Monitor.

Context `{Py : Python}.

(** A value held by [start_time], [end_time] or a field of a saved block. *)
Inductive value : Type :=
  | VNone
  | VFloat (f : float)
  | VObj (o : obj).

(** One entry of [timer_blocks]: the dict with the keys ["start_time"],
    ["end_time"] and ["elapsed"]. *)
Record timer_block : Type := TimerBlock {
  blk_start_time : value;
  blk_end_time : value;
  blk_elapsed : float
}.

(** A logger: [Callable[[str], None]].  [lg line = Some e] when the call
    raises [e], [None] when it returns. *)
Definition callable : Type := string -> option exn.

(** The default logger, [print]. *)
Definition print : callable := fun _ => None.

Record PerformanceMonitor : Type := Monitor {
  start_time : value;
  end_time : value;
  timer_blocks : gmap string timer_block;
  logger : option callable
}.

(** The dataclass constructor: [start_time] and [end_time] are
    [init=False] with default [None]. *)
Definition new_monitor (blocks : gmap string timer_block)
    (lg : option callable) : PerformanceMonitor :=
  Monitor VNone VNone blocks lg.

Definition default_monitor : PerformanceMonitor := new_monitor ∅ (Some print).

(** ** The world *)

(** [clock n] is the value of the [n]-th reading of [time.perf_counter],
    [ticks] counts the readings made so far, and [calls] lists the lines
    the logger was called with, oldest first. *)
Record world : Type := World {
  clock : nat -> float;
  ticks : nat;
  calls : list string
}.

(** ** The monad *)

Definition state : Type := PerformanceMonitor * world.

Definition M (A : Type) : Type := state -> (exn + A) * state.

Definition ret {A} (a : A) : M A := fun σ => (inr a, σ).

Definition bind {A B} (m : M A) (k : A -> M B) : M B :=
  fun σ => match m σ with
           | (inl e, σ') => (inl e, σ')
           | (inr a, σ') => k a σ'
           end.

Definition raise {A} (e : exn) : M A := fun σ => (inl e, σ).

(** [try: m  except Exception as e: h e].  What [m] did to the state
    before it raised stays done. *)
Definition try_except {A} (m : M A) (h : exn -> M A) : M A :=
  fun σ => match m σ with
           | (inl e, σ') => h e σ'
           | (inr a, σ') => (inr a, σ')
           end.

(** A call of a builtin that returns or raises and leaves the state alone. *)
Definition lift {A} (r : exn + A) : M A := fun σ => (r, σ).

#[global] Instance M_ret : MRet M := @ret.
#[global] Instance M_bind : MBind M := fun A B k m => bind m k.

Definition get_self : M PerformanceMonitor := fun σ => (inr (fst σ), σ).

Definition set_start_time (v : value) : M unit :=
  fun '(s, w) => (inr tt, (Monitor v (end_time s) (timer_blocks s) (logger s), w)).

Definition set_end_time (v : value) : M unit :=
  fun '(s, w) => (inr tt, (Monitor (start_time s) v (timer_blocks s) (logger s), w)).

Definition set_timer_blocks (b : gmap string timer_block) : M unit :=
  fun '(s, w) => (inr tt, (Monitor (start_time s) (end_time s) b (logger s), w)).

(** [time.perf_counter()] *)
Definition perf_counter : M float :=
  fun '(s, w) => (inr (clock w (ticks w)), (s, World (clock w) (S (ticks w)) (calls w))).

(** Calling a logger: the call is recorded, then it returns or raises. *)
Definition call (lg : callable) (line : string) : M unit :=
  fun '(s, w) =>
    let w' := World (clock w) (ticks w) (calls w ++ [line]) in
    match lg line with
    | Some e => (inl e, (s, w'))
    | None => (inr tt, (s, w'))
    end.

(** ** Builtins *)

(** [float(v)]: [inl e] when it raises [e]. *)
Definition py_float (v : value) : exn + float :=
  match v with
  | VNone =>
      inl (Exn (Builtin "TypeError")
             "float() argument must be a string or a real number, not 'NoneType'")
  | VFloat f => inr f
  | VObj o => float_of_obj o
  end.

(** [str(v)], as an f-string formats a field with an empty format spec. *)
Definition py_str (v : value) : string :=
  match v with
  | VNone => "None"
  | VFloat f => str_float f
  | VObj o => str_of_obj o
  end.

(** [d[k]]; the handler in [log_time] drops the [KeyError]. *)
Definition dict_getitem (d : gmap string timer_block) (k : string) : M timer_block :=
  match d !! k with
  | Some b => ret b
  | None => raise (Exn (Builtin "KeyError") k)
  end.

(** ** The methods of [PerformanceMonitor] *)

Definition start : M unit :=
  t ← perf_counter;
  set_start_time (VFloat t).

Definition end_ : M unit :=
  self ← get_self;
  match start_time self with
  | VNone =>
      raise (Exn TimerError
               ("Timer was not started. Call Timer.start() to begin the timer" +:+ nl))
  | _ =>
      t ← perf_counter;
      set_end_time (VFloat t)
  end.

Definition reset (clear_blocks : bool) : M unit :=
  set_start_time VNone;;
  set_end_time VNone;;
  if clear_blocks then set_timer_blocks ∅ else ret tt.

Definition save_block (block_name : string) : M unit :=
  try_except
    (self ← get_self;
     e ← lift (py_float (end_time self));
     b ← lift (py_float (start_time self));
     let elapsed := (e - b)%float in
     self ← get_self;
     set_timer_blocks
       (<[block_name := TimerBlock (start_time self) (end_time self) elapsed]>
          (timer_blocks self)))
    (fun e =>
       raise (Exn SaveError
                ("Error saving timer block. Error: " +:+ str_exn e +:+ nl))).

(** The f-string of [log_time]. *)
Definition log_line (block_name : string) (b : timer_block) : string :=
  block_name +:+ " timer | start time: " +:+ py_str (blk_start_time b)
    +:+ " | end time: " +:+ py_str (blk_end_time b)
    +:+ " | elapsed: " +:+ str_float (blk_elapsed b).

Definition log_time (block_name : string) : M unit :=
  b ← try_except
        (self ← get_self; dict_getitem (timer_blocks self) block_name)
        (fun _ =>
           raise (Exn TimerError
                    "No saved timer blocks. Call Timer.save_block() to save a timer block or start/end a timer and save it"));
  self ← get_self;
  match logger self with
  | None => raise (Exn TimerError "No logger configured with the timer")
  | Some lg => call lg (log_line block_name b)
  end.

Definition __enter__ : M unit := start.

(** [__exit__] returns [None], which is false: the exception that ended
    the body is not swallowed. *)
Definition __exit__ : M bool :=
  end_;;
  save_block "ctx_manager";;
  log_time "ctx_manager";;
  ret false.

(** The body of a [with] statement followed by the call of [__exit__].
    When [__exit__] raises, its exception replaces the one of the body;
    when it returns a false value, the exception of the body is raised
    again. *)
Definition body_then_exit (body : M unit) : M unit :=
  fun σ =>
    match body σ with
    | (inr tt, σ') =>
        match __exit__ σ' with
        | (inl e', σ'') => (inl e', σ'')
        | (inr _, σ'') => (inr tt, σ'')
        end
    | (inl e, σ') =>
        match __exit__ σ' with
        | (inl e', σ'') => (inl e', σ'')
        | (inr swallow, σ'') => if swallow then (inr tt, σ'') else (inl e, σ'')
        end
    end.

(** [with self: body] *)
Definition with_ (body : M unit) : M unit :=
  __enter__;;
  body_then_exit body.

End Monitor.

(** ** The failures, under the names the specification gives them *)

(** [end] on a monitor that was not started. *)
Definition TimerNotStarted : exn :=
  Exn TimerError ("Timer was not started. Call Timer.start() to begin the timer" +:+ nl).

(** [save_block] when the [try] block raised [cause]. *)
Definition SaveFailure (cause : exn) : exn :=
  Exn SaveError ("Error saving timer block. Error: " +:+ str_exn cause +:+ nl).

(** [log_time] on a name that is not a key of [timer_blocks]. *)
Definition NoSavedBlock : exn :=
  Exn TimerError
    "No saved timer blocks. Call Timer.save_block() to save a timer block or start/end a timer and save it".

(** [log_time] on a monitor whose [logger] is [None]. *)
Definition NoSinkConfigured : exn :=
  Exn TimerError "No logger configured with the timer".

(** What [float(None)] raises. *)
Definition float_of_None : exn :=
  Exn (Builtin "TypeError")
    "float() argument must be a string or a real number, not 'NoneType'".

(** [numeric v]: [float(v)] returns. *)
Definition numeric `{Py : Python} (v : value) : bool :=
  match py_float v with
  | inr _ => true
  | inl _ => false
  end.

(** Text that comes right before [item] in [line]: a non-empty [label]
    with [label ++ item] a prefix of [line]. *)
Definition preceded_by_label (line item : string) : Prop :=
  exists label rest, label <> "" /\ line = label +:+ item +:+ rest.

(** [starts_with p s]: [p] is a prefix of [s]. *)
Fixpoint starts_with (p s : string) : bool :=
  match p, s with
  | EmptyString, _ => true
  | String a p', String b s' => if Ascii.eqb a b then starts_with p' s' else false
  | String _ _, EmptyString => false
  end.

(** [occurs item s]: [item] is found in [s] at some position. *)
Fixpoint occurs (item s : string) : bool :=
  starts_with item s ||
  match s with
  | EmptyString => false
  | String _ s' => occurs item s'
  end.

(** ** A runtime and sample data for the examples *)

Module Demo.

(** The only object besides [None] and the floats is the string ['abc'],
    which [float()] refuses.  [str()] of a float is given on the floats
    the examples print. *)
Definition py : Python := {|
  obj := unit;
  float_of_obj := fun _ =>
    inl (Exn (Builtin "ValueError") "could not convert string to float: 'abc'");
  str_of_obj := fun _ => "abc";
  str_float := fun f =>
    if PrimFloat.Leibniz.eqb f 0%float then "0.0"
    else if PrimFloat.Leibniz.eqb f 0.25%float then "0.25"
    else if PrimFloat.Leibniz.eqb f 1%float then "1.0"
    else if PrimFloat.Leibniz.eqb f 2%float then "2.0"
    else if PrimFloat.Leibniz.eqb f (-1)%float then "-1.0"
    else "nan"
|}.

(** A clock that reads 0.0, then 0.25, then 1.0, then 2.0 for ever. *)
Definition clock0 (n : nat) : float :=
  match n with
  | 0 => 0%float
  | 1 => 0.25%float
  | 2 => 1%float
  | _ => 2%float
  end.

Definition w0 : world := World clock0 0 [].

(** [PerformanceMonitor()] *)
Definition fresh : @PerformanceMonitor py := default_monitor.

(** [PerformanceMonitor(logger=None)] *)
Definition mute : @PerformanceMonitor py := new_monitor ∅ None.

(** A monitor stopped after one run from 0.0 to 0.25. *)
Definition stopped : @PerformanceMonitor py :=
  Monitor (VFloat 0%float) (VFloat 0.25%float) ∅ (Some print).

Definition blk : @timer_block py :=
  TimerBlock (VFloat 0%float) (VFloat 0.25%float) 0.25%float.

(** The same monitor with a block saved under ["blk"]. *)
Definition saved : @PerformanceMonitor py :=
  Monitor (VFloat 0%float) (VFloat 0.25%float) {["blk" := blk]} (Some print).

(** The same, without a logger. *)
Definition saved_mute : @PerformanceMonitor py :=
  Monitor (VFloat 0%float) (VFloat 0.25%float) {["blk" := blk]} None.

Definition CustomError : exn := Exn (Builtin "CustomError") "boom".

(** A body that resets the monitor and then raises. *)
Definition resetting_body : @M py unit := reset false;; raise CustomError.

(** A body that only raises. *)
Definition raising_body : @M py unit := raise CustomError.

End Demo.

(** ** Programs that drive a monitor *)

(** What a caller can do with one monitor: call its methods, raise an
    exception of its own, do one thing after another, catch what a
    block raises ([try: p  except Exception: pass]) and time a block
    ([with monitor: body]). *)
Inductive script : Type :=
  | DoPass
  | DoStart
  | DoEnd
  | DoReset (clear_blocks : bool)
  | DoSave (block_name : string)
  | DoLog (block_name : string)
  | DoRaise (e : exn)
  | DoSeq (p q : script)
  | DoTry (p : script)
  | DoWith (body : script).

Fixpoint exec `{Py : Python} (p : script) : M unit :=
  match p with
  | DoPass => ret tt
  | DoStart => start
  | DoEnd => end_
  | DoReset clear_blocks => reset clear_blocks
  | DoSave block_name => save_block block_name
  | DoLog block_name => log_time block_name
  | DoRaise e => raise e
  | DoSeq p q => exec p;; exec q
  | DoTry p => try_except (exec p) (fun _ => ret tt)
  | DoWith body => with_ (exec body)
  end.

(** [clears p]: [reset(True)] is called somewhere in [p]. *)
Fixpoint clears (p : script) : bool :=
  match p with
  | DoReset clear_blocks => clear_blocks
  | DoSeq p q => clears p || clears q
  | DoTry p => clears p
  | DoWith body => clears body
  | _ => false
  end.

(** [logs p]: [log_time] is called somewhere in [p], by the caller or by
    the [__exit__] of a [with]. *)
Fixpoint logs (p : script) : bool :=
  match p with
  | DoLog _ => true
  | DoWith _ => true
  | DoSeq p q => logs p || logs q
  | DoTry p => logs p
  | _ => false
  end.

(** [m] keeps [P]: the state [m] ends in, returning or raising,
    satisfies [P] when the state it started in does. *)
Definition preserves `{Py : Python} {A} (P : state -> Prop) (m : M A) : Prop :=
  forall σ, P σ -> P (snd (m σ)).

(** The three phases of a run. *)
Inductive phase : Type := Idle | Running | Stopped.

(** The phase the two timestamps stand for; [None] when they stand for
    none: an end without a start, or a timestamp that is not a float. *)
Definition phase_of `{Py : Python} (s : PerformanceMonitor) : option phase :=
  match start_time s, end_time s with
  | VNone, VNone => Some Idle
  | VFloat _, VNone => Some Running
  | VFloat _, VFloat _ => Some Stopped
  | _, _ => None
  end.

(** A block whose [elapsed] is the difference of its two times. *)
Definition consistent `{Py : Python} (b : timer_block) : Prop :=
  exists t0 t1,
    py_float (blk_start_time b) = inr t0 /\
    py_float (blk_end_time b) = inr t1 /\
    blk_elapsed b = (t1 - t0)%float.

(** A logger that refuses every line. *)
Definition broken_logger : callable :=
  fun _ => Some (Exn (Builtin "OSError") "closed").

(** * Properties *)

(** Unfolds the monad and the primitive operations on the state. *)
Ltac run :=
  cbv [start end_ reset save_block log_time log_line __enter__ __exit__ with_
       body_then_exit mbind M_bind bind mret M_ret ret raise lift try_except
       get_self set_start_time set_end_time set_timer_blocks perf_counter call
       dict_getitem start_time end_time timer_blocks logger clock ticks calls
       fst snd] in *.

Section Facts.

Context `{Py : Python}.

Implicit Types (s : PerformanceMonitor) (w : world) (name : string).

Lemma py_float_None : py_float VNone = inl float_of_None.
Proof. reflexivity. Qed.

Lemma py_float_VFloat (t : float) : py_float (VFloat t) = inr t.
Proof. reflexivity. Qed.

Lemma numeric_true (v : value) :
  numeric v = true <-> exists t, py_float v = inr t.
Proof.
  unfold numeric. destruct (py_float v) as [e|t]; split.
  - discriminate.
  - intros [t Ht]. discriminate.
  - eauto.
  - reflexivity.
Qed.

Lemma numeric_false (v : value) :
  numeric v = false <-> exists e, py_float v = inl e.
Proof.
  unfold numeric. destruct (py_float v) as [e|t]; split.
  - eauto.
  - reflexivity.
  - discriminate.
  - intros [e He]. discriminate.
Qed.

(** [start] always returns, and [__enter__] is [start]. *)
Lemma start_run s w :
  start (s, w) =
    (inr tt, (Monitor (VFloat (clock w (ticks w))) (end_time s) (timer_blocks s) (logger s),
              World (clock w) (S (ticks w)) (calls w))).
Proof. destruct s, w. reflexivity. Qed.

Lemma end_run_started s w :
  start_time s <> VNone ->
  end_ (s, w) =
    (inr tt, (Monitor (start_time s) (VFloat (clock w (ticks w))) (timer_blocks s) (logger s),
              World (clock w) (S (ticks w)) (calls w))).
Proof.
  destruct s as [st en bl lg], w as [c n l]. run. intros Hst.
  destruct st; [congruence | reflexivity | reflexivity].
Qed.

Lemma end_run_not_started s w :
  start_time s = VNone -> end_ (s, w) = (inl TimerNotStarted, (s, w)).
Proof.
  destruct s as [st en bl lg], w as [c n l]. run. intros ->. reflexivity.
Qed.

(** [save_block] when both conversions return. *)
Lemma save_block_run name s w t0 t1 :
  py_float (start_time s) = inr t0 ->
  py_float (end_time s) = inr t1 ->
  save_block name (s, w) =
    (inr tt,
     (Monitor (start_time s) (end_time s)
        (<[name := TimerBlock (start_time s) (end_time s) (t1 - t0)]> (timer_blocks s))
        (logger s), w)).
Proof.
  destruct s as [st en bl lg]. run. intros -> ->. reflexivity.
Qed.

(** [save_block] when [float(self.end_time)] raises. *)
Lemma save_block_run_end_fails name s w e :
  py_float (end_time s) = inl e ->
  save_block name (s, w) = (inl (SaveFailure e), (s, w)).
Proof.
  destruct s as [st en bl lg]. run. intros ->. reflexivity.
Qed.

(** [save_block] when [float(self.start_time)] raises after
    [float(self.end_time)] returned. *)
Lemma save_block_run_start_fails name s w t1 e :
  py_float (end_time s) = inr t1 ->
  py_float (start_time s) = inl e ->
  save_block name (s, w) = (inl (SaveFailure e), (s, w)).
Proof.
  destruct s as [st en bl lg]. run. intros -> ->. reflexivity.
Qed.

Lemma log_time_run_unsaved name s w :
  timer_blocks s !! name = None ->
  log_time name (s, w) = (inl NoSavedBlock, (s, w)).
Proof.
  destruct s as [st en bl lg]. run. intros ->. reflexivity.
Qed.

Lemma log_time_run_no_logger name s w b :
  timer_blocks s !! name = Some b ->
  logger s = None ->
  log_time name (s, w) = (inl NoSinkConfigured, (s, w)).
Proof.
  destruct s as [st en bl lg]. run. intros -> ->. reflexivity.
Qed.

Lemma log_time_run_logger name s w b lg :
  timer_blocks s !! name = Some b ->
  logger s = Some lg ->
  log_time name (s, w) =
    (match lg (log_line name b) with Some e => inl e | None => inr tt end,
     (s, World (clock w) (ticks w) (calls w ++ [log_line name b]))).
Proof.
  destruct s as [st en bl lg'], w as [c n l]. run. intros -> ->.
  destruct (lg _); reflexivity.
Qed.

(** A label in front of [item] means that [item] is found again after
    the first character of the line. *)
Lemma preceded_by_label_occurs (line item : string) :
  preceded_by_label line item ->
  exists c r, line = String c r /\ occurs item r = true.
Proof.
  intros (label & rest & Hne & ->).
  destruct label as [|c label]; [congruence|].
  exists c, (label +:+ item +:+ rest). split; [reflexivity|].
  clear Hne. induction label as [|a label IH]; cbn [String.append occurs].
  - assert (Hp : forall p q, starts_with p (p +:+ q) = true).
    { induction p as [|x p IHp]; intros q; simpl; [reflexivity|].
      rewrite Ascii.eqb_refl. apply IHp. }
    assert (Ho : forall q, starts_with item q = true -> occurs item q = true).
    { intros [|x q] Hq; simpl; rewrite Hq; reflexivity. }
    apply Ho. exact (Hp item rest).
  - change (starts_with item (String a (label +:+ item +:+ rest))
            || occurs item (label +:+ item +:+ rest) = true).
    rewrite IH. apply orb_true_r.
Qed.

(** ** [save_block] *)

(** C1: when [start_time] and [end_time] are both numeric, [save_block name]
    returns and leaves under [name] exactly the block made of
    [start_time], [end_time] and [elapsed = end_time - start_time], with
    no test on the sign of [elapsed]; the other entries, the two
    timestamps, the logger and the world are as before; the mapping has
    the size it had when [name] was already a key. *)
Theorem save_block_stores name s w t0 t1 :
  py_float (start_time s) = inr t0 ->
  py_float (end_time s) = inr t1 ->
  exists s',
    save_block name (s, w) = (inr tt, (s', w)) /\
    timer_blocks s' !! name =
      Some (TimerBlock (start_time s) (end_time s) (t1 - t0)) /\
    (forall k, k <> name -> timer_blocks s' !! k = timer_blocks s !! k) /\
    (is_Some (timer_blocks s !! name) ->
       size (timer_blocks s') = size (timer_blocks s)) /\
    (timer_blocks s !! name = None ->
       size (timer_blocks s') = S (size (timer_blocks s))) /\
    start_time s' = start_time s /\
    end_time s' = end_time s /\
    logger s' = logger s.
Proof.
  intros H0 H1. eexists. split; [apply (save_block_run name s w t0 t1 H0 H1)|].
  cbn [timer_blocks start_time end_time logger]. repeat split.
  - apply lookup_insert_eq.
  - intros k Hk. apply lookup_insert_ne. congruence.
  - apply map_size_insert_Some.
  - apply map_size_insert_None.
Qed.

(** C5: when [start_time] or [end_time] is [None], [save_block name]
    raises [SaveError] with the message built from the cause, and the
    monitor and the world are unchanged. *)
Theorem save_block_absent name s w :
  start_time s = VNone \/ end_time s = VNone ->
  exists cause,
    save_block name (s, w) = (inl (SaveFailure cause), (s, w)) /\
    exn_type (SaveFailure cause) = SaveError.
Proof.
  intros H. destruct (py_float (end_time s)) as [e|t1] eqn:He.
  - exists e. split; [|reflexivity]. by apply save_block_run_end_fails.
  - destruct H as [H|H].
    + exists float_of_None. split; [|reflexivity].
      apply (save_block_run_start_fails name s w t1); [done|].
      rewrite H. reflexivity.
    + rewrite H in He. discriminate.
Qed.

(** C10: [save_block name] raises exactly when [float()] refuses one of
    the two timestamps, as it refuses [None]; the name plays no part.
    With both timestamps numeric, [save_block ""] returns and the block
    is stored under the empty string. *)
Theorem save_block_raises_iff name s w :
  ((exists e, fst (save_block name (s, w)) = inl e) <->
     numeric (start_time s) = false \/ numeric (end_time s) = false) /\
  numeric VNone = false /\
  (numeric (start_time s) = true ->
   numeric (end_time s) = true ->
   exists b,
     fst (save_block "" (s, w)) = inr tt /\
     timer_blocks (fst (snd (save_block "" (s, w)))) !! "" = Some b /\
     blk_start_time b = start_time s /\
     blk_end_time b = end_time s).
Proof.
  split; [|split; [reflexivity|]].
  - destruct (py_float (end_time s)) as [e1|t1] eqn:H1.
    + rewrite (save_block_run_end_fails name s w e1 H1). split.
      * intros _. right. apply numeric_false. eauto.
      * eauto.
    + destruct (py_float (start_time s)) as [e0|t0] eqn:H0.
      * rewrite (save_block_run_start_fails name s w t1 e0 H1 H0). split.
        -- intros _. left. apply numeric_false. eauto.
        -- eauto.
      * rewrite (save_block_run name s w t0 t1 H0 H1). split.
        -- intros [e He]. discriminate.
        -- intros [H|H]; apply numeric_false in H; destruct H as [e He];
             congruence.
  - intros H0 H1. apply numeric_true in H0, H1.
    destruct H0 as [t0 H0], H1 as [t1 H1].
    rewrite (save_block_run "" s w t0 t1 H0 H1). eexists. split; [reflexivity|].
    cbn [fst snd timer_blocks]. split; [apply lookup_insert_eq|]. by split.
Qed.

(** ** [end] and [reset] *)

(** C4: with [start_time] [None], [end] raises the [TimerError] of a timer
    that was not started and changes nothing, the clock is not even
    read; with [start_time] set, [end] returns and has put the reading
    of the clock into [end_time], the rest of the monitor being as
    before. *)
Theorem end_guard s w :
  (start_time s = VNone -> end_ (s, w) = (inl TimerNotStarted, (s, w))) /\
  (start_time s <> VNone ->
   end_ (s, w) =
     (inr tt,
      (Monitor (start_time s) (VFloat (clock w (ticks w))) (timer_blocks s) (logger s),
       World (clock w) (S (ticks w)) (calls w)))).
Proof. split; [apply end_run_not_started | apply end_run_started]. Qed.

(** C6: [reset clear_blocks] always returns; afterwards [start_time] and
    [end_time] are [None], [timer_blocks] is empty when [clear_blocks]
    is true and is the mapping it was when [clear_blocks] is false, and
    the logger and the world are untouched. *)
Theorem reset_effect (clear_blocks : bool) s w :
  reset clear_blocks (s, w) =
    (inr tt,
     (Monitor VNone VNone (if clear_blocks then ∅ else timer_blocks s) (logger s), w)).
Proof. destruct s as [st en bl lg], clear_blocks; reflexivity. Qed.

(** ** [log_time] *)

(** C2, amended: the name is looked up before the logger is tested.  For
    a name that is not a key of [timer_blocks], [log_time] raises the
    "no saved block" error whatever the logger is; for a saved name on a
    monitor without a logger it raises the "no logger" error.  Nothing
    is changed in either case. *)
Theorem log_time_failures name s w :
  (timer_blocks s !! name = None ->
   log_time name (s, w) = (inl NoSavedBlock, (s, w))) /\
  (is_Some (timer_blocks s !! name) ->
   logger s = None ->
   log_time name (s, w) = (inl NoSinkConfigured, (s, w))).
Proof.
  split.
  - apply log_time_run_unsaved.
  - intros [b Hb]. by apply (log_time_run_no_logger name s w b).
Qed.

(** C7, amended: for a saved name on a monitor with a logger, [log_time]
    calls the logger once, with the text
    [<name> timer | start time: <start> | end time: <end> | elapsed: <elapsed>]:
    the name comes first and is followed by the word [timer], the three
    times follow in this order, each behind its label, and the four
    parts are separated by [" | "].  The monitor is unchanged, the clock
    is not read, and [log_time] returns or raises as the logger does. *)
Theorem log_time_line name s w b lg :
  timer_blocks s !! name = Some b ->
  logger s = Some lg ->
  let line :=
    name +:+ " timer"
      +:+ " | " +:+ "start time: " +:+ py_str (blk_start_time b)
      +:+ " | " +:+ "end time: " +:+ py_str (blk_end_time b)
      +:+ " | " +:+ "elapsed: " +:+ str_float (blk_elapsed b) in
  log_time name (s, w) =
    (match lg line with Some e => inl e | None => inr tt end,
     (s, World (clock w) (ticks w) (calls w ++ [line]))).
Proof.
  intros Hb Hlg line.
  rewrite (log_time_run_logger name s w b lg Hb Hlg).
  assert (Hline : log_line name b = line).
  { unfold log_line, line.
    assert (Hcat : forall x, " timer | start time: " +:+ x
                             = " timer" +:+ " | " +:+ "start time: " +:+ x)
      by reflexivity.
    assert (Hmid : forall x, " | end time: " +:+ x = " | " +:+ "end time: " +:+ x)
      by reflexivity.
    assert (Hend : forall x, " | elapsed: " +:+ x = " | " +:+ "elapsed: " +:+ x)
      by reflexivity.
    by rewrite Hcat, Hmid, Hend. }
  by rewrite Hline.
Qed.

(** ** [start], and the context manager *)

(** C8: [start] puts the reading of the clock into [start_time] and leaves
    [end_time], [timer_blocks] and the logger as they were.  So after
    [start(); end(); start(); save_block(name)] the block saved under
    [name] pairs the second start with the end that came before it, and
    its [elapsed] is that older end minus the newer start; there is a
    clock for which this is below zero. *)
Theorem start_frame_stale_end name s w :
  start (s, w) =
    (inr tt,
     (Monitor (VFloat (clock w (ticks w))) (end_time s) (timer_blocks s) (logger s),
      World (clock w) (S (ticks w)) (calls w))) /\
  (let t1 := clock w (S (ticks w)) in
   let t2 := clock w (S (S (ticks w))) in
   (start;; end_;; start;; save_block name) (s, w) =
     (inr tt,
      (Monitor (VFloat t2) (VFloat t1)
         (<[name := TimerBlock (VFloat t2) (VFloat t1) (t1 - t2)]> (timer_blocks s))
         (logger s),
       World (clock w) (S (S (S (ticks w)))) (calls w)))) /\
  (exists w' b,
     timer_blocks (fst (snd ((start;; end_;; start;; save_block name) (s, w'))))
       !! name = Some b /\
     (blk_elapsed b <? 0)%float = true).
Proof.
  assert (Hrun : forall w0,
    (start;; end_;; start;; save_block name) (s, w0) =
      (inr tt,
       (Monitor (VFloat (clock w0 (S (S (ticks w0))))) (VFloat (clock w0 (S (ticks w0))))
          (<[name := TimerBlock (VFloat (clock w0 (S (S (ticks w0)))))
                       (VFloat (clock w0 (S (ticks w0))))
                       (clock w0 (S (ticks w0)) - clock w0 (S (S (ticks w0))))]>
             (timer_blocks s))
          (logger s),
        World (clock w0) (S (S (S (ticks w0)))) (calls w0)))).
  { intros w0. destruct s as [st en bl lg], w0 as [c n l]. reflexivity. }
  split; [apply start_run|]. split; [apply Hrun|].
  exists Demo.w0. eexists. rewrite Hrun. cbn [fst snd timer_blocks].
  split; [apply lookup_insert_eq|]. reflexivity.
Qed.

(** C3, amended: [__enter__] starts the timer, and on exit, normal or by an
    exception of the body, [__exit__] calls [end] first.  When the body
    left [start_time] [None] (it called [reset]), [end] raises, this
    [TimerError] is what the [with] statement raises, in place of the
    exception of the body if there was one, and nothing is saved or
    logged.  When [start_time] is numeric at exit, the reading of the
    clock goes to [end_time] and the block is saved under
    ["ctx_manager"]; then with a logger whose call returns, the line of
    that block is logged once and the [with] statement ends as the body
    did, raising the very exception of the body or returning; and
    without a logger the "no logger" error is raised. *)
Theorem with_exit_effects (body : M unit) (σ : state) r s1 w1 :
  body (snd (__enter__ σ)) = (r, (s1, w1)) ->
  (start_time s1 = VNone ->
   with_ body σ = (inl TimerNotStarted, (s1, w1))) /\
  (forall t0,
     py_float (start_time s1) = inr t0 ->
     let t1 := clock w1 (ticks w1) in
     let b := TimerBlock (start_time s1) (VFloat t1) (t1 - t0) in
     let line := log_line "ctx_manager" b in
     let s2 := Monitor (start_time s1) (VFloat t1)
                 (<["ctx_manager" := b]> (timer_blocks s1)) (logger s1) in
     (forall lg, logger s1 = Some lg -> lg line = None ->
        with_ body σ =
          (r, (s2, World (clock w1) (S (ticks w1)) (calls w1 ++ [line])))) /\
     (logger s1 = None ->
        with_ body σ =
          (inl NoSinkConfigured, (s2, World (clock w1) (S (ticks w1)) (calls w1))))).
Proof.
  intros Hbody.
  assert (Hwith : with_ body σ =
            match __exit__ (s1, w1) with
            | (inl e', σ'') => (inl e', σ'')
            | (inr swallow, σ'') =>
                match r with
                | inl e => if swallow then (inr tt, σ'') else (inl e, σ'')
                | inr tt => (inr tt, σ'')
                end
            end).
  { destruct σ as [s w]. unfold with_, __enter__ in *.
    cbv [mbind M_bind bind body_then_exit]. rewrite start_run in *.
    cbn [snd] in Hbody. rewrite Hbody.
    destruct r as [e|[]]; destruct (__exit__ (s1, w1)) as [[e'|sw] σ''];
      reflexivity. }
  split.
  - intros Hst. rewrite Hwith. unfold __exit__. cbv [mbind M_bind bind].
    rewrite (end_run_not_started s1 w1 Hst). reflexivity.
  - intros t0 Ht0 t1 b line s2.
    assert (Hst : start_time s1 <> VNone).
    { intros Hst. rewrite Hst in Ht0. discriminate. }
    assert (Hsave : forall w',
      save_block "ctx_manager"
        (Monitor (start_time s1) (VFloat t1) (timer_blocks s1) (logger s1), w')
      = (inr tt, (s2, w'))).
    { intros w'.
      exact (save_block_run "ctx_manager"
               (Monitor (start_time s1) (VFloat t1) (timer_blocks s1) (logger s1))
               w' t0 t1 Ht0 eq_refl). }
    assert (Hblk : timer_blocks s2 !! "ctx_manager" = Some b)
      by apply lookup_insert_eq.
    split.
    + intros lg Hlg Hcall. rewrite Hwith. unfold __exit__.
      cbv [mbind M_bind bind]. rewrite (end_run_started s1 w1 Hst), Hsave.
      rewrite (log_time_run_logger "ctx_manager" s2 _ b lg Hblk Hlg).
      fold line. rewrite Hcall. cbv [mret M_ret ret clock ticks calls].
      destruct r as [e|[]]; reflexivity.
    + intros Hlg. rewrite Hwith. unfold __exit__.
      cbv [mbind M_bind bind]. rewrite (end_run_started s1 w1 Hst), Hsave.
      rewrite (log_time_run_no_logger "ctx_manager" s2 _ b Hblk Hlg).
      reflexivity.
Qed.

(** ** The exception classes *)

(** C9: [end] on a timer that was not started raises the "not started"
    error, [log_time] on a name that is not saved raises the "no saved
    block" error, and [log_time] on a saved name without a logger raises
    the "no logger" error; these three errors have the one class
    [TimerError] and three different messages, so only the message tells
    them apart.  [save_block] on a timestamp that [float()] refuses
    raises an error of the class [SaveError], which is another class.
    Nothing else is raised by the monitor itself: whatever [end] raises
    is the first error, whatever [log_time] raises is the second, the
    third or what the logger raised, whatever [save_block] raises has
    the class [SaveError], and [start] and [reset] never raise. *)
Theorem failure_classes name s w :
  (start_time s = VNone ->
   fst (end_ (s, w)) = inl TimerNotStarted) /\
  (timer_blocks s !! name = None ->
   fst (log_time name (s, w)) = inl NoSavedBlock) /\
  (is_Some (timer_blocks s !! name) ->
   logger s = None ->
   fst (log_time name (s, w)) = inl NoSinkConfigured) /\
  (numeric (start_time s) = false \/ numeric (end_time s) = false ->
   exists cause, fst (save_block name (s, w)) = inl (SaveFailure cause)) /\
  (forall e, fst (end_ (s, w)) = inl e -> e = TimerNotStarted) /\
  (forall e,
     fst (log_time name (s, w)) = inl e ->
     e = NoSavedBlock \/ e = NoSinkConfigured \/
     exists lg line, logger s = Some lg /\ lg line = Some e) /\
  (forall e, fst (save_block name (s, w)) = inl e -> exn_type e = SaveError) /\
  fst (start (s, w)) = inr tt /\
  (forall clear_blocks, fst (reset clear_blocks (s, w)) = inr tt) /\
  exn_type TimerNotStarted = TimerError /\
  exn_type NoSavedBlock = TimerError /\
  exn_type NoSinkConfigured = TimerError /\
  (forall cause, exn_type (SaveFailure cause) = SaveError) /\
  exn_msg TimerNotStarted <> exn_msg NoSavedBlock /\
  exn_msg TimerNotStarted <> exn_msg NoSinkConfigured /\
  exn_msg NoSavedBlock <> exn_msg NoSinkConfigured /\
  SaveError <> TimerError.
Proof.
  split_and!; try discriminate; try reflexivity.
  - intros H. by rewrite (end_run_not_started s w H).
  - intros H. by rewrite (log_time_run_unsaved name s w H).
  - intros [b Hb] Hlg. by rewrite (log_time_run_no_logger name s w b Hb Hlg).
  - intros H. destruct (py_float (end_time s)) as [e1|t1] eqn:H1.
    + exists e1. by rewrite (save_block_run_end_fails name s w e1 H1).
    + destruct (py_float (start_time s)) as [e0|t0] eqn:H0.
      * exists e0. by rewrite (save_block_run_start_fails name s w t1 e0 H1 H0).
      * destruct H as [H|H]; apply numeric_false in H; destruct H as [e He];
          congruence.
  - intros e. destruct (start_time s) as [|t|o] eqn:H.
    + rewrite (end_run_not_started s w H). cbn [fst]. congruence.
    + rewrite (end_run_started s w); [discriminate | congruence].
    + rewrite (end_run_started s w); [discriminate | congruence].
  - intros e. destruct (timer_blocks s !! name) as [b|] eqn:Hb.
    + destruct (logger s) as [lg|] eqn:Hlg.
      * rewrite (log_time_run_logger name s w b lg Hb Hlg). cbn [fst].
        destruct (lg (log_line name b)) as [e'|] eqn:Hcall; [|discriminate].
        intros [= ->]. right. right. eauto.
      * rewrite (log_time_run_no_logger name s w b Hb Hlg). cbn [fst].
        intros [= <-]. right. left. reflexivity.
    + rewrite (log_time_run_unsaved name s w Hb). cbn [fst].
      intros [= <-]. left. reflexivity.
  - intros e. destruct (py_float (end_time s)) as [e1|t1] eqn:H1.
    + rewrite (save_block_run_end_fails name s w e1 H1). cbn [fst].
      intros [= <-]. reflexivity.
    + destruct (py_float (start_time s)) as [e0|t0] eqn:H0.
      * rewrite (save_block_run_start_fails name s w t1 e0 H1 H0). cbn [fst].
        intros [= <-]. reflexivity.
      * rewrite (save_block_run name s w t0 t1 H0 H1). discriminate.
  - intros cb. destruct s, cb; reflexivity.
Qed.

End Facts.

(** * The properties at work on the sample data *)

Lemma save_block_stores_witness :
  py_float (start_time Demo.stopped) = inr 0%float /\
  py_float (end_time Demo.stopped) = inr 0.25%float /\
  exists s',
    save_block "x" (Demo.stopped, Demo.w0) = (inr tt, (s', Demo.w0)) /\
    timer_blocks s' !! "x" =
      Some (TimerBlock (VFloat 0%float) (VFloat 0.25%float) (0.25 - 0)%float).
Proof.
  split; [reflexivity|]. split; [reflexivity|].
  destruct (save_block_stores "x" Demo.stopped Demo.w0 0%float 0.25%float
              eq_refl eq_refl) as (s' & Hrun & Hblk & _).
  exists s'. split; [exact Hrun | exact Hblk].
Defined.

Lemma save_block_absent_witness :
  (start_time Demo.fresh = VNone \/ end_time Demo.fresh = VNone) /\
  exists cause,
    save_block "x" (Demo.fresh, Demo.w0)
      = (inl (SaveFailure cause), (Demo.fresh, Demo.w0)) /\
    exn_type (SaveFailure cause) = SaveError.
Proof.
  split; [left; reflexivity|].
  apply (save_block_absent "x" Demo.fresh Demo.w0). left. reflexivity.
Defined.

Lemma save_block_raises_iff_witness :
  numeric (start_time Demo.stopped) = true /\
  numeric (end_time Demo.stopped) = true /\
  exists b,
    fst (save_block "" (Demo.stopped, Demo.w0)) = inr tt /\
    timer_blocks (fst (snd (save_block "" (Demo.stopped, Demo.w0)))) !! "" = Some b /\
    blk_start_time b = start_time Demo.stopped /\
    blk_end_time b = end_time Demo.stopped.
Proof.
  split; [reflexivity|]. split; [reflexivity|].
  apply (proj2 (proj2 (save_block_raises_iff "x" Demo.stopped Demo.w0)));
    reflexivity.
Defined.

Lemma end_guard_witness :
  start_time Demo.fresh = VNone /\
  end_ (Demo.fresh, Demo.w0) = (inl TimerNotStarted, (Demo.fresh, Demo.w0)) /\
  start_time Demo.stopped <> VNone /\
  end_ (Demo.stopped, Demo.w0) =
    (inr tt,
     (Monitor (VFloat 0%float) (VFloat 0%float) ∅ (Some print),
      World Demo.clock0 1 [])).
Proof.
  split; [reflexivity|]. split.
  - apply (proj1 (end_guard Demo.fresh Demo.w0)). reflexivity.
  - split; [discriminate|].
    apply (proj2 (end_guard Demo.stopped Demo.w0)). discriminate.
Defined.

Lemma log_time_failures_witness :
  timer_blocks Demo.mute !! "x" = None /\
  log_time "x" (Demo.mute, Demo.w0) = (inl NoSavedBlock, (Demo.mute, Demo.w0)) /\
  is_Some (timer_blocks Demo.saved_mute !! "blk") /\
  logger Demo.saved_mute = None /\
  log_time "blk" (Demo.saved_mute, Demo.w0)
    = (inl NoSinkConfigured, (Demo.saved_mute, Demo.w0)).
Proof.
  assert (Hsaved : is_Some (timer_blocks Demo.saved_mute !! "blk")).
  { exists Demo.blk. reflexivity. }
  split; [reflexivity|]. split.
  - apply (proj1 (log_time_failures "x" Demo.mute Demo.w0)). reflexivity.
  - split; [exact Hsaved|]. split; [reflexivity|].
    apply (proj2 (log_time_failures "blk" Demo.saved_mute Demo.w0));
      [exact Hsaved | reflexivity].
Defined.

Lemma log_time_line_witness :
  timer_blocks Demo.saved !! "blk" = Some Demo.blk /\
  logger Demo.saved = Some print /\
  log_time "blk" (Demo.saved, Demo.w0) =
    (inr tt,
     (Demo.saved,
      World Demo.clock0 0
        ["blk timer | start time: 0.0 | end time: 0.25 | elapsed: 0.25"])).
Proof.
  split; [reflexivity|]. split; [reflexivity|].
  exact (log_time_line "blk" Demo.saved Demo.w0 Demo.blk print eq_refl eq_refl).
Defined.

Lemma with_exit_effects_witness :
  Demo.raising_body (snd (__enter__ (Demo.fresh, Demo.w0)))
    = (inl Demo.CustomError,
       (Monitor (VFloat 0%float) VNone ∅ (Some print), World Demo.clock0 1 [])) /\
  with_ Demo.raising_body (Demo.fresh, Demo.w0) =
    (inl Demo.CustomError,
     (Monitor (VFloat 0%float) (VFloat 0.25%float)
        (<["ctx_manager" :=
             TimerBlock (VFloat 0%float) (VFloat 0.25%float) (0.25 - 0)%float]> ∅)
        (Some print),
      World Demo.clock0 2
        ["ctx_manager timer | start time: 0.0 | end time: 0.25 | elapsed: 0.25"])).
Proof.
  split; [reflexivity|].
  destruct (with_exit_effects Demo.raising_body (Demo.fresh, Demo.w0)
              (inl Demo.CustomError)
              (Monitor (VFloat 0%float) VNone ∅ (Some print))
              (World Demo.clock0 1 []) eq_refl) as [_ Hnum].
  destruct (Hnum 0%float eq_refl) as [Hlog _].
  exact (Hlog print eq_refl eq_refl).
Defined.

Lemma failure_classes_witness :
  (start_time Demo.fresh = VNone /\
   fst (end_ (Demo.fresh, Demo.w0)) = inl TimerNotStarted) /\
  (timer_blocks Demo.mute !! "x" = None /\
   fst (log_time "x" (Demo.mute, Demo.w0)) = inl NoSavedBlock) /\
  (is_Some (timer_blocks Demo.saved_mute !! "blk") /\
   logger Demo.saved_mute = None /\
   fst (log_time "blk" (Demo.saved_mute, Demo.w0)) = inl NoSinkConfigured) /\
  (numeric (start_time Demo.fresh) = false /\
   exists cause, fst (save_block "x" (Demo.fresh, Demo.w0)) = inl (SaveFailure cause)) /\
  exn_type TimerNotStarted = TimerError /\
  exn_type NoSavedBlock = TimerError /\
  exn_type NoSinkConfigured = TimerError.
Proof.
  assert (Hsaved : is_Some (timer_blocks Demo.saved_mute !! "blk")).
  { exists Demo.blk. reflexivity. }
  destruct (failure_classes "x" Demo.fresh Demo.w0)
    as (Hend & _ & _ & Hsave & _ & _ & _ & _ & _ & Ht1 & Ht2 & Ht3 & _).
  destruct (failure_classes "x" Demo.mute Demo.w0) as (_ & Hlog & _).
  destruct (failure_classes "blk" Demo.saved_mute Demo.w0) as (_ & _ & Hsink & _).
  split_and!.
  - reflexivity.
  - apply Hend. reflexivity.
  - reflexivity.
  - apply Hlog. reflexivity.
  - exact Hsaved.
  - reflexivity.
  - apply Hsink; [exact Hsaved | reflexivity].
  - reflexivity.
  - apply Hsave. left. reflexivity.
  - exact Ht1.
  - exact Ht2.
  - exact Ht3.
Defined.

(** * Where the code departs from the specification *)

(** C2, as the specification has it, fails: on a monitor without a logger
    and without any saved block, [log_time "x"] raises the "no saved
    block" error, not the "no logger" error. *)
Lemma log_time_unsaved_hides_missing_sink :
  ~ (forall name (s : @PerformanceMonitor Demo.py) (w : world),
       logger s = None ->
       fst (log_time name (s, w)) = inl NoSinkConfigured).
Proof.
  intros H. specialize (H "x" Demo.mute Demo.w0 eq_refl).
  vm_compute in H. discriminate H.
Qed.

(** C7, as the specification has it, fails: the line logged for the block
    ["blk"] starts with the name itself, no label stands in front of it. *)
Lemma log_line_name_has_no_label :
  ~ (forall name (s : @PerformanceMonitor Demo.py) (w : world),
       is_Some (timer_blocks s !! name) ->
       is_Some (logger s) ->
       exists line,
         calls (snd (snd (log_time name (s, w)))) = (calls w ++ [line])%list /\
         preceded_by_label line name).
Proof.
  intros H.
  destruct (H "blk" Demo.saved Demo.w0) as (line & Hcalls & Hlabel).
  - exists Demo.blk. reflexivity.
  - exists print. reflexivity.
  - vm_compute in Hcalls. injection Hcalls as <-.
    apply preceded_by_label_occurs in Hlabel.
    destruct Hlabel as (c & r & Hline & Hocc).
    injection Hline as <- <-. vm_compute in Hocc. discriminate Hocc.
Qed.

(** C3, as the specification has it, fails: a body that calls [reset] and
    then raises leaves [start_time] [None], so [end] raises in
    [__exit__]; the [with] statement raises this [TimerError] instead of
    the exception of the body, and no block is saved under
    ["ctx_manager"], although the monitor has its logger all along. *)
Lemma with_reset_body_loses_error :
  ~ (forall (body : @M Demo.py unit) (σ : state) e s1 w1,
       is_Some (logger (fst σ)) ->
       body (snd (__enter__ σ)) = (inl e, (s1, w1)) ->
       is_Some (logger s1) ->
       fst (with_ body σ) = inl e /\
       is_Some (timer_blocks (fst (snd (with_ body σ))) !! "ctx_manager")).
Proof.
  intros H.
  destruct (H Demo.resetting_body (Demo.fresh, Demo.w0) Demo.CustomError
              (Monitor VNone VNone ∅ (Some print)) (World Demo.clock0 1 []))
    as [Herr _].
  - exists print. reflexivity.
  - reflexivity.
  - exists print. reflexivity.
  - vm_compute in Herr. discriminate Herr.
Qed.

(** * More on the methods and on how they compose *)

Section Composition.

Context `{Py : Python}.

Implicit Types (s : PerformanceMonitor) (w : world) (name : string).

(** ** The state each method ends in *)

Lemma reset_run (clear_blocks : bool) s w :
  reset clear_blocks (s, w) =
    (inr tt,
     (Monitor VNone VNone (if clear_blocks then ∅ else timer_blocks s) (logger s), w)).
Proof. destruct s as [st en bl lg], clear_blocks; reflexivity. Qed.

Lemma end_post s w :
  snd (end_ (s, w)) = (s, w) \/
  start_time s <> VNone /\
  snd (end_ (s, w)) =
    (Monitor (start_time s) (VFloat (clock w (ticks w))) (timer_blocks s) (logger s),
     World (clock w) (S (ticks w)) (calls w)).
Proof.
  destruct (start_time s) as [|t|o] eqn:H.
  - left. by rewrite (end_run_not_started s w H).
  - right. split; [done|]. rewrite (end_run_started s w); [by rewrite H | congruence].
  - right. split; [done|]. rewrite (end_run_started s w); [by rewrite H | congruence].
Qed.

Lemma save_block_post name s w :
  snd (save_block name (s, w)) = (s, w) \/
  exists t0 t1,
    py_float (start_time s) = inr t0 /\
    py_float (end_time s) = inr t1 /\
    snd (save_block name (s, w)) =
      (Monitor (start_time s) (end_time s)
         (<[name := TimerBlock (start_time s) (end_time s) (t1 - t0)]> (timer_blocks s))
         (logger s), w).
Proof.
  destruct (py_float (end_time s)) as [e1|t1] eqn:H1.
  - left. by rewrite (save_block_run_end_fails name s w e1 H1).
  - destruct (py_float (start_time s)) as [e0|t0] eqn:H0.
    + left. by rewrite (save_block_run_start_fails name s w t1 e0 H1 H0).
    + right. exists t0, t1. by rewrite (save_block_run name s w t0 t1 H0 H1).
Qed.

Lemma log_time_post name s w :
  snd (log_time name (s, w)) = (s, w) \/
  exists b lg,
    timer_blocks s !! name = Some b /\
    logger s = Some lg /\
    snd (log_time name (s, w)) =
      (s, World (clock w) (ticks w) (calls w ++ [log_line name b])).
Proof.
  destruct (timer_blocks s !! name) as [b|] eqn:Hb.
  - destruct (logger s) as [lg|] eqn:Hlg.
    + right. exists b, lg. by rewrite (log_time_run_logger name s w b lg Hb Hlg).
    + left. by rewrite (log_time_run_no_logger name s w b Hb Hlg).
  - left. by rewrite (log_time_run_unsaved name s w Hb).
Qed.

(** ** Properties kept along a computation *)

Lemma preserves_ret {A} (P : state -> Prop) (a : A) : preserves P (ret a).
Proof. intros σ HP. exact HP. Qed.

Lemma preserves_raise {A} (P : state -> Prop) (e : exn) : preserves P (@raise _ A e).
Proof. intros σ HP. exact HP. Qed.

Lemma preserves_bind {A B} (P : state -> Prop) (m : M A) (k : A -> M B) :
  preserves P m -> (forall a, preserves P (k a)) -> preserves P (m ≫= k).
Proof.
  intros Hm Hk σ HP. specialize (Hm σ HP). cbv [mbind M_bind bind].
  destruct (m σ) as [[e|a] σ']; [exact Hm|]. apply Hk. exact Hm.
Qed.

Lemma preserves_try {A} (P : state -> Prop) (m : M A) (h : exn -> M A) :
  preserves P m -> (forall e, preserves P (h e)) -> preserves P (try_except m h).
Proof.
  intros Hm Hh σ HP. specialize (Hm σ HP). unfold try_except.
  destruct (m σ) as [[e|a] σ']; [|exact Hm]. apply Hh. exact Hm.
Qed.

Lemma preserves_exit (P : state -> Prop) :
  preserves P end_ ->
  preserves P (save_block "ctx_manager") ->
  preserves P (log_time "ctx_manager") ->
  preserves P __exit__.
Proof.
  intros He Hs Hl. unfold __exit__.
  apply preserves_bind; [exact He|]. intros _.
  apply preserves_bind; [exact Hs|]. intros _.
  apply preserves_bind; [exact Hl|]. intros _.
  apply preserves_ret.
Qed.

Lemma preserves_with (P : state -> Prop) (body : M unit) :
  preserves P start ->
  preserves P body ->
  preserves P __exit__ ->
  preserves P (with_ body).
Proof.
  intros Hs Hb Hx. unfold with_, __enter__.
  apply preserves_bind; [exact Hs|]. intros _ σ HP.
  specialize (Hb σ HP). unfold body_then_exit.
  destruct (body σ) as [[e|[]] σ']; specialize (Hx σ' Hb);
    destruct (__exit__ σ') as [[e'|sw] σ'']; try exact Hx.
  destruct sw; exact Hx.
Qed.

(** What holds before and after each method of the monitor holds before
    and after every program that drives it. *)
Lemma exec_preserves (P : state -> Prop) :
  preserves P start ->
  preserves P end_ ->
  (forall clear_blocks, preserves P (reset clear_blocks)) ->
  (forall name, preserves P (save_block name)) ->
  (forall name, preserves P (log_time name)) ->
  forall p, preserves P (exec p).
Proof.
  intros Hstart Hend Hreset Hsave Hlog.
  induction p as [| | |b|n|n|e|p IHp q IHq|p IHp|body IH]; cbn [exec].
  - apply preserves_ret.
  - exact Hstart.
  - exact Hend.
  - apply Hreset.
  - apply Hsave.
  - apply Hlog.
  - apply preserves_raise.
  - apply preserves_bind; [exact IHp | intros _; exact IHq].
  - apply preserves_try; [exact IHp | intros _; apply preserves_ret].
  - apply preserves_with; [exact Hstart | exact IH |].
    apply preserves_exit; [exact Hend | apply Hsave | apply Hlog].
Qed.

(** [with self: body], once the body has run. *)
Lemma with_run (body : M unit) (σ : state) r s1 w1 :
  body (snd (__enter__ σ)) = (r, (s1, w1)) ->
  with_ body σ =
    match __exit__ (s1, w1) with
    | (inl e', σ'') => (inl e', σ'')
    | (inr swallow, σ'') =>
        match r with
        | inl e => if swallow then (inr tt, σ'') else (inl e, σ'')
        | inr tt => (inr tt, σ'')
        end
    end.
Proof.
  intros Hbody. destruct σ as [s w]. unfold with_, __enter__ in *.
  cbv [mbind M_bind bind body_then_exit]. rewrite start_run in *.
  cbn [snd] in Hbody. rewrite Hbody.
  destruct r as [e|[]]; destruct (__exit__ (s1, w1)) as [[e'|sw] σ''];
    reflexivity.
Qed.

(** [__exit__] on a monitor with a numeric [start_time] and a logger. *)
Lemma exit_run s w t0 lg :
  py_float (start_time s) = inr t0 ->
  logger s = Some lg ->
  let t1 := clock w (ticks w) in
  let b := TimerBlock (start_time s) (VFloat t1) (t1 - t0) in
  __exit__ (s, w) =
    (match lg (log_line "ctx_manager" b) with
     | Some e => inl e
     | None => inr false
     end,
     (Monitor (start_time s) (VFloat t1) (<["ctx_manager" := b]> (timer_blocks s))
        (logger s),
      World (clock w) (S (ticks w)) (calls w ++ [log_line "ctx_manager" b]))).
Proof.
  intros Ht0 Hlg t1 b.
  assert (Hst : start_time s <> VNone).
  { intros Hst. rewrite Hst in Ht0. discriminate. }
  unfold __exit__. cbv [mbind M_bind bind].
  rewrite (end_run_started s w Hst).
  rewrite (save_block_run "ctx_manager"
             (Monitor (start_time s) (VFloat t1) (timer_blocks s) (logger s))
             _ t0 t1 Ht0 eq_refl).
  cbn [start_time end_time timer_blocks logger]. fold b.
  set (s2 := Monitor (start_time s) (VFloat t1)
               (<["ctx_manager" := b]> (timer_blocks s)) (logger s)).
  rewrite (log_time_run_logger "ctx_manager" s2 _ b lg
             (lookup_insert_eq _ _ _) Hlg).
  cbn [clock ticks calls].
  destruct (lg (log_line "ctx_manager" b)); reflexivity.
Qed.

(** ** One run, by hand *)

(** X1: [start(); end(); save_block(name); log_time(name)] on a monitor
    with a logger saves the two readings of the clock and their
    difference under [name] and gives the logger the line of that very
    block; it ends as the call of the logger ends. *)
Theorem manual_cycle name s w lg :
  logger s = Some lg ->
  let t0 := clock w (ticks w) in
  let t1 := clock w (S (ticks w)) in
  let b := TimerBlock (VFloat t0) (VFloat t1) (t1 - t0) in
  (start;; end_;; save_block name;; log_time name) (s, w) =
    (match lg (log_line name b) with Some e => inl e | None => inr tt end,
     (Monitor (VFloat t0) (VFloat t1) (<[name := b]> (timer_blocks s)) (Some lg),
      World (clock w) (S (S (ticks w))) (calls w ++ [log_line name b]))).
Proof.
  intros Hlg t0 t1 b. cbv [mbind M_bind bind].
  rewrite start_run, end_run_started by discriminate.
  cbn [start_time end_time timer_blocks logger clock ticks calls].
  rewrite (save_block_run name
             (Monitor (VFloat t0) (VFloat t1) (timer_blocks s) (logger s))
             _ t0 t1 eq_refl eq_refl).
  cbn [start_time end_time timer_blocks logger]. fold t0 t1 b.
  set (s2 := Monitor (VFloat t0) (VFloat t1) (<[name := b]> (timer_blocks s))
               (logger s)).
  rewrite (log_time_run_logger name s2 _ b lg (lookup_insert_eq _ _ _) Hlg).
  cbn [clock ticks calls]. unfold s2. rewrite Hlg. reflexivity.
Qed.

(** X2: a second [end()] moves [end_time] to the later reading and keeps
    the start, so [start(); end(); end(); save_block(name)] saves the
    interval from the start to the second end. *)
Theorem end_again_extends name s w :
  let t0 := clock w (ticks w) in
  let t2 := clock w (S (S (ticks w))) in
  (start;; end_;; end_;; save_block name) (s, w) =
    (inr tt,
     (Monitor (VFloat t0) (VFloat t2)
        (<[name := TimerBlock (VFloat t0) (VFloat t2) (t2 - t0)]> (timer_blocks s))
        (logger s),
      World (clock w) (S (S (S (ticks w)))) (calls w))).
Proof. destruct s as [st en bl lg], w as [c n l]. reflexivity. Qed.

(** X3: a second [start()] drops the first reading, so
    [start(); start(); end(); save_block(name)] saves the interval from
    the second start to the end. *)
Theorem start_again_restarts name s w :
  let t1 := clock w (S (ticks w)) in
  let t2 := clock w (S (S (ticks w))) in
  (start;; start;; end_;; save_block name) (s, w) =
    (inr tt,
     (Monitor (VFloat t1) (VFloat t2)
        (<[name := TimerBlock (VFloat t1) (VFloat t2) (t2 - t1)]> (timer_blocks s))
        (logger s),
      World (clock w) (S (S (S (ticks w)))) (calls w))).
Proof. destruct s as [st en bl lg], w as [c n l]. reflexivity. Qed.

(** X4: saving twice under one name is saving once: the second call
    writes the block the first wrote, or raises as the first did. *)
Theorem save_block_idempotent name (σ : state) :
  (save_block name;; save_block name) σ = save_block name σ.
Proof.
  destruct σ as [s w]. cbv [mbind M_bind bind].
  destruct (py_float (end_time s)) as [e1|t1] eqn:H1.
  - by rewrite (save_block_run_end_fails name s w e1 H1).
  - destruct (py_float (start_time s)) as [e0|t0] eqn:H0.
    + by rewrite (save_block_run_start_fails name s w t1 e0 H1 H0).
    + rewrite (save_block_run name s w t0 t1 H0 H1).
      set (b := TimerBlock (start_time s) (end_time s) (t1 - t0)).
      rewrite (save_block_run name
                 (Monitor (start_time s) (end_time s)
                    (<[name := b]> (timer_blocks s)) (logger s))
                 w t0 t1 H0 H1).
      cbn [start_time end_time timer_blocks logger].
      by rewrite insert_insert_eq.
Qed.

(** ** [reset] *)

(** X5: after [reset], whatever the flag and the state before, the timer
    is idle: [end()] raises the "not started" error and [save_block]
    raises [SaveError] with the cause of [float(None)], and neither
    changes anything more. *)
Theorem reset_makes_idle (clear_blocks : bool) name (σ : state) :
  (reset clear_blocks;; end_) σ
    = (inl TimerNotStarted, snd (reset clear_blocks σ)) /\
  (reset clear_blocks;; save_block name) σ
    = (inl (SaveFailure float_of_None), snd (reset clear_blocks σ)).
Proof.
  destruct σ as [s w]. cbv [mbind M_bind bind]. rewrite reset_run. split.
  - by rewrite end_run_not_started.
  - by rewrite (save_block_run_end_fails name _ w float_of_None).
Qed.

(** X6: two resets in a row are one reset whose flag is true when one of
    the two flags is; in particular [reset] is idempotent. *)
Theorem reset_absorbs (a b : bool) (σ : state) :
  (reset a;; reset b) σ = reset (a || b) σ.
Proof.
  destruct σ as [s w]. cbv [mbind M_bind bind]. rewrite !reset_run.
  destruct a, b; reflexivity.
Qed.

(** [log_time] looks at [timer_blocks] and at [logger] only. *)
Lemma log_time_ignores_times name s s' w :
  timer_blocks s = timer_blocks s' ->
  logger s = logger s' ->
  fst (log_time name (s, w)) = fst (log_time name (s', w)) /\
  snd (snd (log_time name (s, w))) = snd (snd (log_time name (s', w))).
Proof.
  destruct s as [st en bl lg], s' as [st' en' bl' lg'], w as [c n l].
  cbn [timer_blocks logger]. intros <- <-. run.
  destruct (bl !! name) as [b|]; [|by split].
  destruct lg as [lg|]; [|by split].
  destruct (lg _); by split.
Qed.

(** X7: [reset()] leaves the saved blocks loggable: [log_time] after it
    ends and logs as it would have before.  After [reset(True)],
    [log_time] raises the "no saved block" error for every name. *)
Theorem reset_and_log_time name s w :
  fst ((reset false;; log_time name) (s, w)) = fst (log_time name (s, w)) /\
  snd (snd ((reset false;; log_time name) (s, w))) = snd (snd (log_time name (s, w))) /\
  (reset true;; log_time name) (s, w) =
    (inl NoSavedBlock, (Monitor VNone VNone ∅ (logger s), w)).
Proof.
  cbv [mbind M_bind bind]. rewrite !reset_run. split_and!.
  - apply log_time_ignores_times; reflexivity.
  - apply log_time_ignores_times; reflexivity.
  - by rewrite (log_time_run_unsaved name _ w (lookup_empty _)).
Qed.

(** ** The context manager *)

(** X8: for a body that leaves the monitor as [__enter__] made it, on a
    monitor whose logger returns, [with] saves under ["ctx_manager"] the
    reading made on entry, the reading made on exit and their
    difference, logs that block once, and ends as the body ended. *)
Theorem with_untouched_body (body : M unit) s w r w1 lg :
  let t0 := clock w (ticks w) in
  let entered := Monitor (VFloat t0) (end_time s) (timer_blocks s) (logger s) in
  body (entered, World (clock w) (S (ticks w)) (calls w)) = (r, (entered, w1)) ->
  logger s = Some lg ->
  let t1 := clock w1 (ticks w1) in
  let b := TimerBlock (VFloat t0) (VFloat t1) (t1 - t0) in
  lg (log_line "ctx_manager" b) = None ->
  with_ body (s, w) =
    (r,
     (Monitor (VFloat t0) (VFloat t1) (<["ctx_manager" := b]> (timer_blocks s))
        (Some lg),
      World (clock w1) (S (ticks w1)) (calls w1 ++ [log_line "ctx_manager" b]))).
Proof.
  intros t0 entered Hbody Hlg t1 b Hcall.
  rewrite (with_run body (s, w) r entered w1).
  - rewrite (exit_run entered w1 t0 lg eq_refl Hlg).
    unfold entered. cbn [start_time timer_blocks logger].
    fold t1. fold b. rewrite Hcall, Hlg.
    destruct r as [e|[]]; reflexivity.
  - unfold __enter__. rewrite start_run. exact Hbody.
Qed.

(** X9: when the logger itself raises on the line of the block, that
    exception is what [with] raises, in place of the one of the body if
    the body raised; the block is saved all the same and the call of
    the logger is on record. *)
Theorem with_logger_raises (body : M unit) (σ : state) r s1 w1 t0 lg e' :
  body (snd (__enter__ σ)) = (r, (s1, w1)) ->
  py_float (start_time s1) = inr t0 ->
  logger s1 = Some lg ->
  let t1 := clock w1 (ticks w1) in
  let b := TimerBlock (start_time s1) (VFloat t1) (t1 - t0) in
  lg (log_line "ctx_manager" b) = Some e' ->
  with_ body σ =
    (inl e',
     (Monitor (start_time s1) (VFloat t1) (<["ctx_manager" := b]> (timer_blocks s1))
        (logger s1),
      World (clock w1) (S (ticks w1)) (calls w1 ++ [log_line "ctx_manager" b]))).
Proof.
  intros Hbody Ht0 Hlg t1 b Hcall.
  rewrite (with_run body σ r s1 w1 Hbody), (exit_run s1 w1 t0 lg Ht0 Hlg).
  fold t1 b. rewrite Hcall. reflexivity.
Qed.

(** ** [log_time] *)

(** X10: in every case, raising or not, [log_time] leaves the monitor as it
    was and does not read the clock, and the record of the calls of the
    logger is as before or one line longer. *)
Theorem log_time_frame name s w :
  fst (snd (log_time name (s, w))) = s /\
  clock (snd (snd (log_time name (s, w)))) = clock w /\
  ticks (snd (snd (log_time name (s, w)))) = ticks w /\
  (calls (snd (snd (log_time name (s, w)))) = calls w \/
   exists line, calls (snd (snd (log_time name (s, w)))) = (calls w ++ [line])%list).
Proof.
  destruct (log_time_post name s w) as [-> | (b & lg & _ & _ & ->)];
    cbn [fst snd clock ticks calls]; split_and!; eauto.
Qed.

(** ** The phases of a run *)

(** X11: on a monitor whose timestamps stand for a phase, [start] makes an
    idle timer running and leaves a running or stopped one in its phase
    (a stopped timer keeps its old end); [end] returns exactly when the
    timer is not idle and then leaves it stopped; [reset] makes it idle;
    [save_block] returns exactly when the timer is stopped; [save_block]
    and [log_time] change no phase. *)
Theorem phase_transitions (ph : phase) (clear_blocks : bool) name s w :
  phase_of s = Some ph ->
  phase_of (fst (snd (start (s, w))))
    = Some (match ph with Idle => Running | _ => ph end) /\
  phase_of (fst (snd (end_ (s, w))))
    = Some (match ph with Idle => Idle | _ => Stopped end) /\
  (fst (end_ (s, w)) = inr tt <-> ph <> Idle) /\
  phase_of (fst (snd (reset clear_blocks (s, w)))) = Some Idle /\
  (fst (save_block name (s, w)) = inr tt <-> ph = Stopped) /\
  phase_of (fst (snd (save_block name (s, w)))) = Some ph /\
  phase_of (fst (snd (log_time name (s, w)))) = Some ph.
Proof.
  intros Hph.
  assert (Hlog : phase_of (fst (snd (log_time name (s, w)))) = Some ph).
  { by destruct (log_time_post name s w) as [-> | (b & lg & _ & _ & ->)]. }
  rewrite reset_run, start_run.
  destruct s as [[|t|o] [|t'|o'] bl lg]; try discriminate Hph;
    injection Hph as <-.
  - rewrite end_run_not_started by reflexivity.
    rewrite (save_block_run_end_fails name _ w float_of_None) by reflexivity.
    split_and!; try done; split; done.
  - rewrite end_run_started by discriminate.
    rewrite (save_block_run_end_fails name _ w float_of_None) by reflexivity.
    split_and!; try done; split; done.
  - rewrite end_run_started by discriminate.
    rewrite (save_block_run name _ w t t') by reflexivity.
    split_and!; try done; split; done.
Qed.

(** X12: whatever program drives the monitor, timestamps that stand for a
    phase still do afterwards: no call sequence, raising or not, leaves
    an end without a start. *)
Theorem exec_keeps_phase (p : script) (σ : state) :
  is_Some (phase_of (fst σ)) ->
  is_Some (phase_of (fst (snd (exec p σ)))).
Proof.
  apply (exec_preserves (fun σ' => is_Some (phase_of (fst σ')))).
  - intros [s w] H. rewrite start_run.
    destruct s as [[|t|o] [|t'|o'] bl lg]; cbn in *;
      first [by eauto | by destruct H as [? ?]].
  - intros [s w] H.
    destruct (end_post s w) as [-> | [Hne ->]]; [exact H|].
    destruct s as [[|t|o] [|t'|o'] bl lg]; cbn in *;
      first [by eauto | by destruct H as [? ?] | by destruct Hne].
  - intros b [s w] _. rewrite reset_run. by eexists.
  - intros n [s w] H.
    by destruct (save_block_post n s w) as [-> | (t0 & t1 & _ & _ & ->)].
  - intros n [s w] H.
    by destruct (log_time_post n s w) as [-> | (b & lg & _ & _ & ->)].
Qed.

(** ** What no program changes *)

(** X13: no method assigns [logger]: after any program the monitor has the
    logger it had. *)
Theorem exec_keeps_logger (p : script) (σ : state) :
  logger (fst (snd (exec p σ))) = logger (fst σ).
Proof.
  apply (exec_preserves (fun σ' => logger (fst σ') = logger (fst σ)));
    [| | | | |reflexivity].
  - intros [s w] H. by rewrite start_run.
  - intros [s w] H. by destruct (end_post s w) as [-> | [_ ->]].
  - intros b [s w] H. by rewrite reset_run.
  - intros n [s w] H.
    by destruct (save_block_post n s w) as [-> | (t0 & t1 & _ & _ & ->)].
  - intros n [s w] H.
    by destruct (log_time_post n s w) as [-> | (b & lg & _ & _ & ->)].
Qed.

(** X14: when every block of the mapping has for [elapsed] the difference
    of its two times, this is still so after any program: every block
    that [save_block] writes is of that kind. *)
Theorem exec_keeps_blocks_consistent (p : script) (σ : state) :
  map_Forall (fun _ => consistent) (timer_blocks (fst σ)) ->
  map_Forall (fun _ => consistent) (timer_blocks (fst (snd (exec p σ)))).
Proof.
  apply (exec_preserves
           (fun σ' => map_Forall (fun _ => consistent) (timer_blocks (fst σ')))).
  - intros [s w] H. by rewrite start_run.
  - intros [s w] H. by destruct (end_post s w) as [-> | [_ ->]].
  - intros b [s w] H. rewrite reset_run. destruct b; [|exact H].
    apply map_Forall_empty.
  - intros n [s w] H.
    destruct (save_block_post n s w) as [-> | (t0 & t1 & H0 & H1 & ->)];
      [exact H|].
    cbn [fst timer_blocks]. apply map_Forall_insert_2; [|exact H].
    by exists t0, t1.
  - intros n [s w] H.
    by destruct (log_time_post n s w) as [-> | (b & lg & _ & _ & ->)].
Qed.

(** X15: a program that never calls [reset(True)] loses no block: every
    name saved before it is still saved after it. *)
Theorem exec_keeps_blocks (p : script) (σ : state) (k : string) :
  clears p = false ->
  is_Some (timer_blocks (fst σ) !! k) ->
  is_Some (timer_blocks (fst (snd (exec p σ))) !! k).
Proof.
  set (P := fun σ' : state => is_Some (timer_blocks (fst σ') !! k)).
  assert (Hsave : forall n, preserves P (save_block n)).
  { intros n [s w] H.
    destruct (save_block_post n s w) as [-> | (t0 & t1 & _ & _ & ->)];
      [exact H|].
    unfold P. cbn [fst timer_blocks]. rewrite lookup_insert.
    by case_decide. }
  assert (Hlog : forall n, preserves P (log_time n)).
  { intros n [s w] H.
    by destruct (log_time_post n s w) as [-> | (b & lg & _ & _ & ->)]. }
  assert (Hstart : preserves P start).
  { intros [s w] H. by rewrite start_run. }
  assert (Hend : preserves P end_).
  { intros [s w] H. by destruct (end_post s w) as [-> | [_ ->]]. }
  intros Hc. revert σ. change (preserves P (exec p)).
  induction p as [| | |b|n|n|e|p IHp q IHq|p IHp|body IH]; cbn [exec clears] in *.
  - apply preserves_ret.
  - exact Hstart.
  - exact Hend.
  - subst b. intros [s w] H. by rewrite reset_run.
  - apply Hsave.
  - apply Hlog.
  - apply preserves_raise.
  - apply orb_false_elim in Hc as [Hp Hq].
    apply preserves_bind; [by apply IHp | intros _; by apply IHq].
  - apply preserves_try; [by apply IHp | intros _; apply preserves_ret].
  - apply preserves_with; [exact Hstart | by apply IH |].
    apply preserves_exit; [exact Hend | apply Hsave | apply Hlog].
Qed.

(** X16: only [log_time] calls the logger: a program without [log_time]
    and without [with] leaves the record of its calls as it was. *)
Theorem exec_silent (p : script) (σ : state) :
  logs p = false ->
  calls (snd (snd (exec p σ))) = calls (snd σ).
Proof.
  set (P := fun σ' : state => calls (snd σ') = calls (snd σ)).
  intros Hl. cut (preserves P (exec p)); [intros Hp; exact (Hp σ eq_refl)|].
  induction p as [| | |b|n|n|e|p IHp q IHq|p IHp|body IH]; cbn [exec logs] in *;
    try discriminate Hl.
  - apply preserves_ret.
  - intros [s w] H. unfold P in *. by rewrite start_run.
  - intros [s w] H. unfold P in *.
    by destruct (end_post s w) as [-> | [_ ->]].
  - intros [s w] H. unfold P in *. by rewrite reset_run.
  - intros [s w] H. unfold P in *.
    by destruct (save_block_post n s w) as [-> | (t0 & t1 & _ & _ & ->)].
  - apply preserves_raise.
  - apply orb_false_elim in Hl as [Hp Hq].
    apply preserves_bind; [by apply IHp | intros _; by apply IHq].
  - apply preserves_try; [by apply IHp | intros _; apply preserves_ret].
Qed.

End Composition.

(** * The further properties at work on the sample data *)

Lemma manual_cycle_witness :
  logger Demo.fresh = Some print /\
  (start;; end_;; save_block "run";; log_time "run") (Demo.fresh, Demo.w0) =
    (inr tt,
     (Monitor (VFloat 0%float) (VFloat 0.25%float)
        (<["run" := TimerBlock (VFloat 0%float) (VFloat 0.25%float) (0.25 - 0)%float]> ∅)
        (Some print),
      World Demo.clock0 2
        ["run timer | start time: 0.0 | end time: 0.25 | elapsed: 0.25"])).
Proof.
  split; [reflexivity|].
  exact (manual_cycle "run" Demo.fresh Demo.w0 print eq_refl).
Defined.

Lemma with_untouched_body_witness :
  Demo.raising_body
    (Monitor (VFloat 0%float) VNone ∅ (Some print), World Demo.clock0 1 [])
    = (inl Demo.CustomError,
       (Monitor (VFloat 0%float) VNone ∅ (Some print), World Demo.clock0 1 [])) /\
  with_ Demo.raising_body (Demo.fresh, Demo.w0) =
    (inl Demo.CustomError,
     (Monitor (VFloat 0%float) (VFloat 0.25%float)
        (<["ctx_manager" :=
             TimerBlock (VFloat 0%float) (VFloat 0.25%float) (0.25 - 0)%float]> ∅)
        (Some print),
      World Demo.clock0 2
        ["ctx_manager timer | start time: 0.0 | end time: 0.25 | elapsed: 0.25"])).
Proof.
  split; [reflexivity|].
  exact (with_untouched_body Demo.raising_body Demo.fresh Demo.w0
           (inl Demo.CustomError) (World Demo.clock0 1 []) print
           eq_refl eq_refl eq_refl).
Defined.

Lemma with_logger_raises_witness :
  fst (with_ Demo.raising_body
         (@new_monitor Demo.py ∅ (Some broken_logger), Demo.w0))
    = inl (Exn (Builtin "OSError") "closed") /\
  is_Some
    (timer_blocks
       (fst (snd (with_ Demo.raising_body
                    (@new_monitor Demo.py ∅ (Some broken_logger), Demo.w0))))
       !! "ctx_manager").
Proof.
  rewrite (with_logger_raises Demo.raising_body
             (@new_monitor Demo.py ∅ (Some broken_logger), Demo.w0)
             (inl Demo.CustomError)
             (Monitor (VFloat 0%float) VNone ∅ (Some broken_logger))
             (World Demo.clock0 1 []) 0%float broken_logger
             (Exn (Builtin "OSError") "closed")
             eq_refl eq_refl eq_refl eq_refl).
  split; [reflexivity|]. eexists. apply lookup_insert_eq.
Defined.

Lemma phase_transitions_witness :
  phase_of Demo.stopped = Some Stopped /\
  phase_of (fst (snd (start (Demo.stopped, Demo.w0)))) = Some Stopped /\
  (fst (save_block "x" (Demo.stopped, Demo.w0)) = inr tt <-> Stopped = Stopped).
Proof.
  split; [reflexivity|].
  destruct (phase_transitions Stopped false "x" Demo.stopped Demo.w0 eq_refl)
    as (Hstart & _ & _ & _ & Hsave & _).
  split; [exact Hstart | exact Hsave].
Defined.

Lemma exec_keeps_phase_witness :
  is_Some (phase_of Demo.fresh) /\
  is_Some
    (phase_of
       (fst (snd (exec (DoSeq (DoTry DoEnd)
                          (DoWith (DoSeq (DoReset false) (DoRaise Demo.CustomError))))
                    (Demo.fresh, Demo.w0))))).
Proof.
  assert (H : is_Some (phase_of Demo.fresh)) by (exists Idle; reflexivity).
  split; [exact H|].
  exact (exec_keeps_phase _ (Demo.fresh, Demo.w0) H).
Defined.

Lemma exec_keeps_blocks_consistent_witness :
  map_Forall (fun _ => consistent) (timer_blocks Demo.saved) /\
  map_Forall (fun _ => consistent)
    (timer_blocks
       (fst (snd (exec (DoSeq DoStart (DoSeq DoEnd (DoSave "again")))
                    (Demo.saved, Demo.w0))))).
Proof.
  assert (H : map_Forall (fun _ => consistent) (timer_blocks Demo.saved)).
  { apply map_Forall_singleton. exists 0%float, 0.25%float.
    split; [reflexivity|]. split; reflexivity. }
  split; [exact H|].
  exact (exec_keeps_blocks_consistent _ (Demo.saved, Demo.w0) H).
Defined.

Lemma exec_keeps_blocks_witness :
  clears (DoSeq (DoReset false) (DoWith (DoSave "blk"))) = false /\
  is_Some (timer_blocks Demo.saved !! "blk") /\
  is_Some
    (timer_blocks
       (fst (snd (exec (DoSeq (DoReset false) (DoWith (DoSave "blk")))
                    (Demo.saved, Demo.w0))))
       !! "blk").
Proof.
  assert (H : is_Some (timer_blocks Demo.saved !! "blk"))
    by (exists Demo.blk; reflexivity).
  split; [reflexivity|]. split; [exact H|].
  exact (exec_keeps_blocks (DoSeq (DoReset false) (DoWith (DoSave "blk")))
           (Demo.saved, Demo.w0) "blk" eq_refl H).
Defined.

Lemma exec_silent_witness :
  logs (DoSeq DoStart (DoSeq DoEnd (DoSave "quiet"))) = false /\
  calls (snd (snd (exec (DoSeq DoStart (DoSeq DoEnd (DoSave "quiet")))
                     (Demo.saved, Demo.w0))))
    = calls Demo.w0.
Proof.
  split; [reflexivity|].
  exact (exec_silent (DoSeq DoStart (DoSeq DoEnd (DoSave "quiet")))
           (Demo.saved, Demo.w0) eq_refl).
Defined.
